(** * AgentPass Python SDK: the REST client, embedded and verified

    Source: [packages/python-sdk/src/agentpass/client.py].

    The client is a thin wrapper around one HTTP call per operation.  The
    embedding keeps the shape of the Python code:

    - Python values (what [resp.json()] can produce) are the inductive
      [value]; a Python [dict] is a [gmap string value];
    - exceptions are the inductive [exn], a computation that may raise is a
      [result];
    - methods that touch [self.token] or the network run in the monad [M],
      whose state is the client object together with the list of the
      requests handed to [requests.request], one per call of it;
    - the [requests] library is outside the repository: the network is a
      section variable [transport], and [ok] follows the definition the
      library gives for [Response.ok]. *)

From stdpp Require Import gmap strings list fin_maps pretty.
From Stdlib Require Import ZArith Ascii PrimFloat.

#[local] Set Warnings "-register-all".
#[local] Open Scope string_scope.
#[local] Open Scope Z_scope.
#[local] Open Scope list_scope.

(** ** Python values and exceptions *)

Inductive value : Type :=
  | VNone
  | VBool (b : bool)
  | VInt (z : Z)
  | VFloat (f : float)
  | VStr (s : string)
  | VList (l : list value)
  | VDict (d : gmap string value).

(** [AgentPassError] is the class of client.py (lines 10-15); the others are
    the built-in and library exceptions that the code can meet. *)
Inductive exn : Type :=
  | AgentPassError (message : string) (status_code : option Z)
  | KeyError (key : string)
  | TypeError
  | AttributeError
  | JSONDecodeError
  | RequestException (kind : string).

Inductive result (A : Type) : Type :=
  | Return (a : A)
  | Raise (e : exn).
Arguments Return {A} a.
Arguments Raise {A} e.

#[global] Instance result_ret : MRet result := λ A a, Return a.
#[global] Instance result_bind : MBind result := λ A B f m,
  match m with
  | Return a => f a
  | Raise e => Raise e
  end.

Definition is_agentpass_error (e : exn) : bool :=
  match e with
  | AgentPassError _ _ => true
  | _ => false
  end.

(** [bool(v)]: the truth value Python gives to [v] in an [if]. *)
Definition truthy (v : value) : bool :=
  match v with
  | VNone => false
  | VBool b => b
  | VInt z => negb (z =? 0)
  | VFloat f => negb (PrimFloat.eqb f 0%float)
  | VStr s => negb (String.eqb s "")
  | VList l => match l with [] => false | _ => true end
  | VDict d => negb (bool_decide (d = ∅))
  end.

(** [v[key]] for a string key. *)
Definition py_getitem (v : value) (key : string) : result value :=
  match v with
  | VDict d =>
      match d !! key with
      | Some x => Return x
      | None => Raise (KeyError key)
      end
  | _ => Raise TypeError
  end.

(** [v.get(key, default)]: only a dict has the method. *)
Definition py_get (v : value) (key : string) (dflt : value) : result value :=
  match v with
  | VDict d => Return (default dflt (d !! key))
  | _ => Raise AttributeError
  end.

(** [s.rstrip(chars)]: drop every trailing character that occurs in [chars]. *)
Fixpoint mem_char (a : Ascii.ascii) (chars : string) : bool :=
  match chars with
  | EmptyString => false
  | String b chars' => Ascii.eqb a b || mem_char a chars'
  end.

Fixpoint rstrip (chars s : string) : string :=
  match s with
  | EmptyString => EmptyString
  | String a s' =>
      match rstrip chars s' with
      | EmptyString => if mem_char a chars then EmptyString else String a EmptyString
      | r => String a r
      end
  end.

(** [s] ends with the character [a]. *)
Fixpoint ends_with (a : Ascii.ascii) (s : string) : bool :=
  match s with
  | EmptyString => false
  | String b EmptyString => Ascii.eqb b a
  | String _ s' => ends_with a s'
  end.

Fixpoint slashes (n : nat) : string :=
  match n with
  | O => EmptyString
  | S n' => String "/"%char (slashes n')
  end.

(** ** HTTP messages *)

Record Request : Type := mkRequest {
  req_method : string;
  req_url : string;
  req_json : value;
  req_headers : gmap string string;
  req_timeout : Z
}.

(** What the client reads from a [requests.Response]: [status_code], [text],
    and [json()], which either decodes the body or raises. *)
Record Response : Type := mkResponse {
  status_code : Z;
  text : string;
  json_decoded : option value
}.

(** [Response.ok] of the requests library: [raise_for_status()] raises for
    400 <= status < 500 and for 500 <= status < 600, and [ok] is true when
    it does not raise. *)
Definition ok (resp : Response) : bool :=
  negb (((400 <=? status_code resp) && (status_code resp <? 500))
        || ((500 <=? status_code resp) && (status_code resp <? 600))).

Definition is_2xx (resp : Response) : bool :=
  (200 <=? status_code resp) && (status_code resp <? 300).

Definition resp_json (resp : Response) : result value :=
  match json_decoded resp with
  | Some v => Return v
  | None => Raise JSONDecodeError
  end.

(** A 204 response carries no content (RFC 9110, 15.3.5): the HTTP layer
    hands over an empty body, which does not decode. *)
Definition well_formed (resp : Response) : Prop :=
  status_code resp = 204 → text resp = "" ∧ json_decoded resp = None.

(** ** The client object and the state the methods run in *)

Record AgentPassClient : Type := mkClient {
  base_url : string;
  token : value
}.

Record State : Type := mkState {
  client : AgentPassClient;
  sent : list Request
}.

Definition M (A : Type) : Type := State → result A * State.

#[global] Instance M_ret : MRet M := λ A a st, (Return a, st).
#[global] Instance M_bind : MBind M := λ A B f m st,
  match m st with
  | (Return a, st') => f a st'
  | (Raise e, st') => (Raise e, st')
  end.

Definition raise {A} (e : exn) : M A := λ st, (Raise e, st).
Definition lift {A} (r : result A) : M A := λ st, (r, st).
Definition get_self : M AgentPassClient := λ st, (Return (client st), st).
Definition set_token (v : value) : M unit := λ st,
  (Return tt, mkState (mkClient (base_url (client st)) v) (sent st)).

Definition default_base_url : string := "https://api.agentpass.space".

(** [AgentPassClient.__init__] (lines 21-27). *)
Definition __init__ (base_url : string) (token : value) : AgentPassClient :=
  mkClient (rstrip "/" base_url) token.

Inductive operation : Type :=
  | Register (email password name : string)
  | Login (email password : string)
  | CreatePassport (name public_key : string)
  | GetPassport (passport_id : string)
  | GetPublicPassport (passport_id : string)
  | Verify (passport_id challenge signature : string)
  | GetTrust (passport_id : string)
  | SendMessage (from_id to_id subject body : string)
  | GetMessages (passport_id : string).

Definition is_auth_operation (op : operation) : bool :=
  match op with
  | Register _ _ _ | Login _ _ => true
  | _ => false
  end.

Section Client.

(** [repr] of the values whose [str] is their [repr] and whose text is
    fixed by the interpreter (floats, lists, dicts). *)
Variable repr : value → string.

(** [requests.request]: the answer of the network to a request, or the
    exception the transport raises. *)
Variable transport : Request → result Response.

(** [str(v)], also what an f-string puts for [{v}]. *)
Definition py_str (v : value) : string :=
  match v with
  | VStr s => s
  | VNone => "None"
  | VBool true => "True"
  | VBool false => "False"
  | VInt z => pretty z
  | _ => repr v
  end.

(** [_headers] (lines 31-35). *)
Definition _headers (self : AgentPassClient) (auth : bool) : gmap string string :=
  let h : gmap string string := {["Content-Type" := "application/json"]} in
  if auth && truthy (token self)
  then <["Authorization" := "Bearer " +:+ py_str (token self)]> h
  else h.

Definition requests_request (method url : string) (json : value)
    (headers : gmap string string) (timeout : Z) : M Response := λ st,
  let req := mkRequest method url json headers timeout in
  (transport req, mkState (client st) (sent st ++ [req])).

(** The message of the error raised for a failed response (lines 50-54):
    the [try] block replaces [body] only when nothing in it raises. *)
Definition error_body (resp : Response) : value :=
  let body := VStr (text resp) in
  match j ← resp_json resp; py_get j "error" body with
  | Return v => v
  | Raise _ => body
  end.

(** [_request] (lines 37-58). *)
Definition _request (method path : string) (json : value) (auth : bool) : M value :=
  self ← get_self;
  let url := base_url self +:+ path in
  resp ← requests_request method url json (_headers self auth) 30;
  if negb (ok resp) then
    raise (AgentPassError (py_str (error_body resp)) (Some (status_code resp)))
  else if status_code resp =? 204 then
    mret VNone
  else
    lift (resp_json resp).

Definition dict (kvs : list (string * value)) : value :=
  VDict (list_to_map kvs).

(** [register] (lines 62-68). *)
Definition register (email password name : string) : M value :=
  data ← _request "POST" "/auth/register"
    (dict [("email", VStr email); ("password", VStr password); ("name", VStr name)])
    true;
  tok ← lift (py_getitem data "token");
  _ ← set_token tok;
  self ← get_self;
  mret (token self).

(** [login] (lines 70-76). *)
Definition login (email password : string) : M value :=
  data ← _request "POST" "/auth/login"
    (dict [("email", VStr email); ("password", VStr password)])
    true;
  tok ← lift (py_getitem data "token");
  _ ← set_token tok;
  self ← get_self;
  mret (token self).

(** [create_passport] (lines 80-84). *)
Definition create_passport (name public_key : string) : M value :=
  _request "POST" "/passports"
    (dict [("name", VStr name); ("publicKey", VStr public_key)]) true.

(** [get_passport] (lines 86-88). *)
Definition get_passport (passport_id : string) : M value :=
  _request "GET" ("/passports/" +:+ passport_id) VNone true.

(** [get_public_passport] (lines 90-92). *)
Definition get_public_passport (passport_id : string) : M value :=
  _request "GET" ("/passports/" +:+ passport_id +:+ "/public") VNone false.

(** [verify] (lines 96-103). *)
Definition verify (passport_id challenge signature : string) : M value :=
  _request "POST" ("/passports/" +:+ passport_id +:+ "/verify")
    (dict [("challenge", VStr challenge); ("signature", VStr signature)]) false.

(** [get_trust] (lines 107-109). *)
Definition get_trust (passport_id : string) : M value :=
  _request "GET" ("/passports/" +:+ passport_id +:+ "/trust") VNone true.

(** [send_message] (lines 113-121). *)
Definition send_message (from_id to_id subject body : string) : M value :=
  _request "POST" "/messages"
    (dict [("from", VStr from_id); ("to", VStr to_id);
           ("subject", VStr subject); ("body", VStr body)]) true.

(** [get_messages] (lines 123-125). *)
Definition get_messages (passport_id : string) : M value :=
  _request "GET" ("/passports/" +:+ passport_id +:+ "/messages") VNone true.

(** Calling a public method of the client. *)
Definition call (op : operation) : M value :=
  match op with
  | Register e p n => register e p n
  | Login e p => login e p
  | CreatePassport n k => create_passport n k
  | GetPassport i => get_passport i
  | GetPublicPassport i => get_public_passport i
  | Verify i c s => verify i c s
  | GetTrust i => get_trust i
  | SendMessage f t s b => send_message f t s b
  | GetMessages i => get_messages i
  end.

End Client.

Section Requests.

Variable repr : value → string.
Variable transport : Request → result Response.

(** The arguments each public method hands to [_request]: the method, the
    path, the [json=] body and the [auth=] flag ([True] when not given). *)
Definition op_method (op : operation) : string :=
  match op with
  | GetPassport _ | GetPublicPassport _ | GetTrust _ | GetMessages _ => "GET"
  | _ => "POST"
  end.

Definition op_path (op : operation) : string :=
  match op with
  | Register _ _ _ => "/auth/register"
  | Login _ _ => "/auth/login"
  | CreatePassport _ _ => "/passports"
  | GetPassport i => "/passports/" +:+ i
  | GetPublicPassport i => "/passports/" +:+ i +:+ "/public"
  | Verify i _ _ => "/passports/" +:+ i +:+ "/verify"
  | GetTrust i => "/passports/" +:+ i +:+ "/trust"
  | SendMessage _ _ _ _ => "/messages"
  | GetMessages i => "/passports/" +:+ i +:+ "/messages"
  end.

Definition op_json (op : operation) : value :=
  match op with
  | Register e p n =>
      dict [("email", VStr e); ("password", VStr p); ("name", VStr n)]
  | Login e p => dict [("email", VStr e); ("password", VStr p)]
  | CreatePassport n k => dict [("name", VStr n); ("publicKey", VStr k)]
  | Verify _ c s => dict [("challenge", VStr c); ("signature", VStr s)]
  | SendMessage f t s b =>
      dict [("from", VStr f); ("to", VStr t); ("subject", VStr s); ("body", VStr b)]
  | _ => VNone
  end.

Definition op_auth (op : operation) : bool :=
  match op with
  | GetPublicPassport _ | Verify _ _ _ => false
  | _ => true
  end.

Definition request_for (self : AgentPassClient) (op : operation) : Request :=
  mkRequest (op_method op) (base_url self +:+ op_path op) (op_json op)
    (_headers repr self (op_auth op)) 30.

(** The state after the request of [op] went out. *)
Definition after_send (op : operation) (st : State) : State :=
  mkState (client st) (sent st ++ [request_for (client st) op]).

(** What [_request] makes of a response (lines 49-58). *)
Definition interpret (resp : Response) : result value :=
  if negb (ok resp) then
    Raise (AgentPassError (py_str repr (error_body resp)) (Some (status_code resp)))
  else if status_code resp =? 204 then Return VNone
  else resp_json resp.

(** The call [op] put one request on the wire and the network answered it
    with [resp]. *)
Definition answered (op : operation) (st : State) (resp : Response) : Prop :=
  ∃ req, sent (call repr transport op st).2 = sent st ++ [req]
         ∧ transport req = Return resp.

End Requests.

(** ** The scenarios of tests/test_client.py

    The tests replace the network by the [responses] mock: one answer is
    registered for a method and URL, and any other request fails to
    connect. *)

Definition mock (method url : string) (resp : Response)
    : Request → result Response := λ req,
  if String.eqb (req_method req) method && String.eqb (req_url req) url
  then Return resp
  else Raise (RequestException "ConnectionError").

(** A stand-in for the interpreter's [repr]; no scenario below reaches it. *)
Definition repr_stub : value → string := λ _, "<repr>".

Definition BASE : string := "https://api.agentpass.space".

Definition quoted (s : string) : string :=
  String "034"%char s +:+ String "034"%char EmptyString.

(** A response whose body is the JSON object with the one string field
    [key]. *)
Definition json_field (status : Z) (key val : string) : Response :=
  mkResponse status ("{" +:+ quoted key +:+ ": " +:+ quoted val +:+ "}")
    (Some (dict [(key, VStr val)])).

Definition fresh (self : AgentPassClient) : State := mkState self [].

Definition no_token : AgentPassClient := __init__ default_base_url VNone.
Definition with_token (t : string) : AgentPassClient :=
  __init__ default_base_url (VStr t).

(** [test_error_handling]: the login that the server rejects. *)
Definition login_rejected : Response :=
  json_field 401 "error" "Invalid credentials".
Definition login_rejected_net : Request → result Response :=
  mock "POST" (BASE +:+ "/auth/login") login_rejected.

(** [test_login]. *)
Definition login_accepted : Response := json_field 200 "token" "tok456".
Definition login_accepted_net : Request → result Response :=
  mock "POST" (BASE +:+ "/auth/login") login_accepted.

(** [test_get_messages]: an inbox with one message. *)
Definition inbox : Response :=
  mkResponse 200 ("[{" +:+ quoted "id" +:+ ": " +:+ quoted "m1" +:+ "}]")
    (Some (VList [dict [("id", VStr "m1")]])).
Definition inbox_net : Request → result Response :=
  mock "GET" (BASE +:+ "/passports/ap_a/messages") inbox.

(** Answers that the tests do not cover: 204 No Content, a login answered
    with a JSON object that has no [token], and 300 Multiple Choices with a
    JSON array as its body. *)
Definition no_content : Response := mkResponse 204 "" None.
Definition login_no_content_net : Request → result Response :=
  mock "POST" (BASE +:+ "/auth/login") no_content.
Definition trust_no_content_net : Request → result Response :=
  mock "GET" (BASE +:+ "/passports/ap_1/trust") no_content.

Definition login_without_token : Response := json_field 200 "user" "a@b.com".
Definition login_without_token_net : Request → result Response :=
  mock "POST" (BASE +:+ "/auth/login") login_without_token.

Definition multiple_choices : Response := mkResponse 300 "[]" (Some (VList [])).
Definition multiple_choices_net : Request → result Response :=
  mock "GET" (BASE +:+ "/passports/ap_a/messages") multiple_choices.

(** ** Three sentences of the specification, as they are worded

    They are compared with the code below; each fails at one input. *)

(** "Any non-2xx response raises the API error", with the status code of the
    response. *)
Definition non_2xx_raises : Prop :=
  ∀ repr transport op st resp,
    answered repr transport op st resp →
    is_2xx resp = false →
    ∃ msg, (call repr transport op st).1
           = Raise (AgentPassError msg (Some (status_code resp))).

(** "[Authorization: Bearer <token>] when the operation requires
    authentication and a token is present", a token being present when the
    optional [token] holds a value. *)
Definition bearer_when_token_present : Prop :=
  ∀ repr transport op st,
    op_auth op = true →
    token (client st) ≠ VNone →
    ∃ req, sent (call repr transport op st).2 = sent st ++ [req]
           ∧ req_headers req !! "Authorization"
             = Some ("Bearer " +:+ py_str repr (token (client st))).

(** "A 204 response produces no result value", for every operation. *)
Definition no_content_returns_none : Prop :=
  ∀ repr transport op st resp,
    answered repr transport op st resp →
    status_code resp = 204 →
    (call repr transport op st).1 = Return VNone.

(** ** Notions for the further properties *)

(** The call [op] put one request on the wire and the transport raised [e]
    instead of answering. *)
Definition refused (repr : value → string)
    (transport : Request → result Response)
    (op : operation) (st : State) (e : exn) : Prop :=
  ∃ req, sent (call repr transport op st).2 = sent st ++ [req]
         ∧ transport req = Raise e.

(** The transport raises the exceptions of the requests library, never the
    [AgentPassError] of this package. *)
Definition library_transport (transport : Request → result Response) : Prop :=
  ∀ req e, transport req = Raise e → is_agentpass_error e = false.

(** Two registered answers: the first net that knows the request answers. *)
Definition or_else (net1 net2 : Request → result Response)
    : Request → result Response := λ req,
  match net1 req with
  | Return resp => Return resp
  | Raise _ => net2 req
  end.

(** A 200 answer whose body is a web page, not JSON. *)
Definition html_page : Response := mkResponse 200 "<html></html>" None.
Definition html_page_net : Request → result Response :=
  mock "GET" (BASE +:+ "/passports/ap_1") html_page.

(** A login followed by [create_passport], both answered. *)
Definition passport_created : Response := json_field 200 "id" "ap_1".
Definition session_net : Request → result Response :=
  or_else login_accepted_net (mock "POST" (BASE +:+ "/passports") passport_created).

(** ** How a call runs *)

Section Runs.

Variable repr : value → string.
Variable transport : Request → result Response.

#[local] Abbreviation call := (call repr transport).
#[local] Abbreviation request_for := (request_for repr).
#[local] Abbreviation after_send := (after_send repr).
#[local] Abbreviation interpret := (interpret repr).
#[local] Abbreviation answered := (answered repr transport).

Lemma _request_run method path json auth st :
  _request repr transport method path json auth st
  = (r ← transport (mkRequest method (base_url (client st) +:+ path) json
                      (_headers repr (client st) auth) 30);
     interpret r,
     mkState (client st)
       (sent st ++ [mkRequest method (base_url (client st) +:+ path) json
                      (_headers repr (client st) auth) 30])).
Proof.
  unfold _request, mbind, M_bind, get_self, requests_request; simpl.
  destruct (transport _) as [resp|e]; simpl; [|reflexivity].
  unfold interpret, raise, lift, mret, M_ret.
  destruct (negb (ok resp)); [reflexivity|].
  destruct (status_code resp =? 204); reflexivity.
Qed.

(** Every method but [register] and [login] is one [_request]. *)
Lemma call_plain op st :
  is_auth_operation op = false →
  call op st
  = (r ← transport (request_for (client st) op); interpret r, after_send op st).
Proof.
  intros Hop. destruct op; try discriminate Hop; apply _request_run.
Qed.

(** [register] and [login] read ["token"] from the answer and store it. *)
Lemma call_auth op st :
  is_auth_operation op = true →
  call op st
  = match r ← transport (request_for (client st) op);
          data ← interpret r; py_getitem data "token" with
    | Return tok =>
        (Return tok,
         mkState (mkClient (base_url (client st)) tok) (sent (after_send op st)))
    | Raise e => (Raise e, after_send op st)
    end.
Proof.
  intros Hop. destruct op; try discriminate Hop; simpl.
  - unfold register. unfold mbind at 1, M_bind at 1. rewrite _request_run.
    fold (op_json (Register email password name)).
    change (mkRequest "POST" _ _ _ 30)
      with (request_for (client st) (Register email password name)).
    destruct (transport _) as [resp|e]; simpl; [|reflexivity].
    destruct (interpret resp) as [data|e]; simpl; [|reflexivity].
    unfold mbind, M_bind, lift.
    destruct (py_getitem data "token"); reflexivity.
  - unfold login. unfold mbind at 1, M_bind at 1. rewrite _request_run.
    change (mkRequest "POST" _ _ _ 30)
      with (request_for (client st) (Login email password)).
    destruct (transport _) as [resp|e]; simpl; [|reflexivity].
    destruct (interpret resp) as [data|e]; simpl; [|reflexivity].
    unfold mbind, M_bind, lift.
    destruct (py_getitem data "token"); reflexivity.
Qed.

Lemma call_sent op st :
  sent (call op st).2 = sent st ++ [request_for (client st) op].
Proof.
  destruct (is_auth_operation op) eqn:Hop.
  - rewrite call_auth by assumption.
    destruct (_ ≫= _) as [tok|e]; reflexivity.
  - rewrite call_plain by assumption. reflexivity.
Qed.

Lemma answered_iff op st resp :
  answered op st resp ↔ transport (request_for (client st) op) = Return resp.
Proof.
  unfold answered. rewrite call_sent. split.
  - intros (req & Heq & Hresp). apply app_inj_tail in Heq as [_ <-]. exact Hresp.
  - intros Hresp. eexists. split; [reflexivity|exact Hresp].
Qed.

Lemma ok_false_iff resp : ok resp = false ↔ 400 ≤ status_code resp < 600.
Proof. unfold ok. lia. Qed.

Lemma is_2xx_ok resp : is_2xx resp = true → ok resp = true.
Proof. unfold is_2xx, ok. lia. Qed.

Lemma interpret_failure resp :
  ok resp = false →
  interpret resp
  = Raise (AgentPassError (py_str repr (error_body resp)) (Some (status_code resp))).
Proof. intros Hok. unfold interpret. rewrite Hok. reflexivity. Qed.

Lemma interpret_no_content resp :
  status_code resp = 204 → interpret resp = Return VNone.
Proof. intros H. unfold interpret, ok. rewrite H. reflexivity. Qed.

Lemma interpret_json resp v :
  well_formed resp → ok resp = true → json_decoded resp = Some v →
  interpret resp = Return v.
Proof.
  intros Hwf Hok Hv. unfold interpret, resp_json. rewrite Hok, Hv. simpl.
  destruct (Z.eqb_spec (status_code resp) 204) as [H204|_]; [|reflexivity].
  destruct (Hwf H204) as [_ Hnone]. congruence.
Qed.

Lemma error_body_field resp d e :
  json_decoded resp = Some (VDict d) → d !! "error" = Some e →
  error_body resp = e.
Proof.
  intros Hj He. unfold error_body, resp_json. rewrite Hj. simpl. rewrite He.
  reflexivity.
Qed.

Lemma error_body_text resp :
  (∀ d, json_decoded resp = Some (VDict d) → d !! "error" = None) →
  error_body resp = VStr (text resp).
Proof.
  intros Hno. unfold error_body, resp_json.
  destruct (json_decoded resp) as [[]|]; simpl; try reflexivity.
  rewrite (Hno d eq_refl). reflexivity.
Qed.

(** An exception of [_request] leaves every method at once. *)
Lemma call_raises op st resp e :
  transport (request_for (client st) op) = Return resp →
  interpret resp = Raise e →
  call op st = (Raise e, after_send op st).
Proof.
  intros Hresp He. destruct (is_auth_operation op) eqn:Hop.
  - rewrite call_auth by assumption. rewrite Hresp. simpl. rewrite He. reflexivity.
  - rewrite call_plain by assumption. rewrite Hresp. simpl. rewrite He. reflexivity.
Qed.

(** Whatever is raised, the client object is the one from before the call. *)
Lemma call_raise_client op st e :
  (call op st).1 = Raise e → client (call op st).2 = client st.
Proof.
  destruct (is_auth_operation op) eqn:Hop.
  - rewrite call_auth by assumption.
    destruct (_ ≫= _) as [tok|e']; [discriminate|reflexivity].
  - rewrite call_plain by assumption. reflexivity.
Qed.

(** ** The claims *)

(** An [ok] response can make a method fail to decode or to index, but it
    never makes it raise [AgentPassError]. *)
Lemma call_ok_raise op st resp e :
  transport (request_for (client st) op) = Return resp →
  ok resp = true →
  (call op st).1 = Raise e →
  is_agentpass_error e = false.
Proof.
  intros Hnet Hok.
  assert (∀ e', interpret resp = Raise e' → is_agentpass_error e' = false)
    as Hint.
  { unfold interpret, resp_json. rewrite Hok. simpl.
    destruct (status_code resp =? 204); [discriminate|].
    destruct (json_decoded resp); [discriminate|].
    intros e' [= <-]. reflexivity. }
  destruct (is_auth_operation op) eqn:Hop.
  - rewrite call_auth by assumption. rewrite Hnet. simpl.
    destruct (interpret resp) as [data|e'] eqn:Hresp; simpl.
    + unfold py_getitem. destruct data; simpl; try (intros [= <-]; reflexivity).
      destruct (d !! "token"); simpl; [discriminate|].
      intros [= <-]. reflexivity.
    + intros [= <-]. apply Hint. reflexivity.
  - rewrite call_plain by assumption. rewrite Hnet. simpl. apply Hint.
Qed.



Lemma headers_content_type self auth :
  _headers repr self auth !! "Content-Type" = Some "application/json".
Proof.
  unfold _headers. destruct (auth && truthy (token self)).
  - rewrite lookup_insert_ne by discriminate. apply lookup_singleton_eq.
  - apply lookup_singleton_eq.
Qed.

Lemma headers_authorization self auth :
  _headers repr self auth !! "Authorization"
  = if auth && truthy (token self)
    then Some ("Bearer " +:+ py_str repr (token self))
    else None.
Proof.
  unfold _headers. destruct (auth && truthy (token self)).
  - apply lookup_insert_eq.
  - apply lookup_singleton_ne. discriminate.
Qed.

(** C3 (amended): the one request of every operation carries
    [Content-Type: application/json]; it carries
    [Authorization: Bearer <token>] when the method asks for authentication
    and the stored token is truthy (a non-empty string); it carries no
    [Authorization] header when no token is set or the token is empty. *)
Theorem request_headers op st :
  ∃ req,
    sent (call op st).2 = sent st ++ [req]
    ∧ req_headers req !! "Content-Type" = Some "application/json"
    ∧ (op_auth op = true → truthy (token (client st)) = true →
       req_headers req !! "Authorization"
       = Some ("Bearer " +:+ py_str repr (token (client st))))
    ∧ (truthy (token (client st)) = false →
       req_headers req !! "Authorization" = None).
Proof.
  exists (request_for (client st) op). split; [apply call_sent|].
  simpl. split; [apply headers_content_type|].
  rewrite headers_authorization. split.
  - intros -> ->. reflexivity.
  - intros ->. rewrite andb_false_r. reflexivity.
Qed.


(** C5: [get_public_passport] and [verify] (the methods that pass
    [auth=False]) build the same request, without an [Authorization]
    header, whatever token the client holds. *)
Theorem public_request_ignores_token op b t1 t2 log :
  op_auth op = false →
  ∃ req,
    sent (call op (mkState (mkClient b t1) log)).2 = log ++ [req]
    ∧ sent (call op (mkState (mkClient b t2) log)).2 = log ++ [req]
    ∧ req_headers req !! "Authorization" = None.
Proof.
  intros Hop. exists (request_for (mkClient b t1) op).
  rewrite !call_sent. cbn [client sent].
  split; [reflexivity|]. split.
  - unfold request_for, _headers. rewrite Hop. reflexivity.
  - unfold request_for; cbn [req_headers].
    rewrite headers_authorization, Hop. reflexivity.
Qed.

(** C6: every operation other than [register] and [login] leaves the client
    object (base URL and token) as it was, whether it returns or raises. *)
Theorem other_calls_keep_client op st :
  is_auth_operation op = false →
  client (call op st).2 = client st.
Proof. intros Hop. rewrite call_plain by assumption. reflexivity. Qed.


Lemma rstrip_not_ends_with chars a s :
  mem_char a chars = true → ends_with a (rstrip chars s) = false.
Proof.
  intros Hmem. induction s as [|b s IH]; [reflexivity|]. simpl.
  destruct (rstrip chars s) as [|c r].
  - destruct (mem_char b chars) eqn:Hb; [reflexivity|]. simpl.
    destruct (Ascii.eqb_spec b a) as [->|_]; [congruence|reflexivity].
  - exact IH.
Qed.

Lemma rstrip_slashes s : ∃ n, s = rstrip "/" s +:+ slashes n.
Proof.
  induction s as [|b s [n IH]]; [exists O; reflexivity|]. simpl.
  destruct (rstrip "/" s) as [|c r].
  - simpl in IH. subst s. destruct (Ascii.eqb_spec b "/") as [->|_]; simpl.
    + exists (S n). reflexivity.
    + exists n. reflexivity.
  - exists n. rewrite IH at 1. reflexivity.
Qed.

(** C8: the constructor stores the given base URL without its trailing
    slashes (the default is https://api.agentpass.space), so the stored base
    URL does not end in [/]; no operation changes the stored base URL; and
    the request of every operation goes to base URL + path. *)
Theorem base_url_stripped_and_kept :
  (∀ b t,
     base_url (__init__ b t) = rstrip "/" b
     ∧ ends_with "/" (base_url (__init__ b t)) = false
     ∧ ∃ n, b = base_url (__init__ b t) +:+ slashes n)
  ∧ base_url (__init__ default_base_url VNone) = "https://api.agentpass.space"
  ∧ (∀ op st,
       base_url (client (call op st).2) = base_url (client st)
       ∧ (ends_with "/" (base_url (client st)) = false →
          ends_with "/" (base_url (client (call op st).2)) = false))
  ∧ (∀ op st,
       ∃ req, sent (call op st).2 = sent st ++ [req]
              ∧ req_url req = base_url (client st) +:+ op_path op).
Proof.
  split; [|split; [reflexivity|split]].
  - intros b t. simpl. split; [reflexivity|]. split.
    + apply rstrip_not_ends_with. reflexivity.
    + apply rstrip_slashes.
  - intros op st.
    assert (base_url (client (call op st).2) = base_url (client st)) as Heq.
    { destruct (is_auth_operation op) eqn:Hop.
      - rewrite call_auth by assumption.
        destruct (_ ≫= _) as [tok|e]; reflexivity.
      - rewrite call_plain by assumption. reflexivity. }
    split; [exact Heq|]. rewrite Heq. tauto.
  - intros op st. exists (request_for (client st) op).
    split; [apply call_sent|reflexivity].
Qed.

(** C9: when [register] or [login] raises [AgentPassError], the stored token
    is the one from before the call. *)
Theorem failed_auth_call_keeps_token op st msg code :
  is_auth_operation op = true →
  (call op st).1 = Raise (AgentPassError msg code) →
  token (client (call op st).2) = token (client st).
Proof.
  intros _ Hraise. rewrite (call_raise_client _ _ _ Hraise). reflexivity.
Qed.


End Runs.

(** ** The tests of the repository, replayed on the embedding *)

Example test_register :
  let net := mock "POST" (BASE +:+ "/auth/register") (json_field 200 "token" "tok123") in
  let out := call repr_stub net (Register "a@b.com" "pw" "Agent") (fresh no_token) in
  out.1 = Return (VStr "tok123") ∧ token (client out.2) = VStr "tok123".
Proof. split; reflexivity. Qed.

Example test_login :
  let out := call repr_stub login_accepted_net (Login "a@b.com" "pw") (fresh no_token) in
  out.1 = Return (VStr "tok456") ∧ token (client out.2) = VStr "tok456".
Proof. split; reflexivity. Qed.

Example test_create_passport :
  let net := mock "POST" (BASE +:+ "/passports") (json_field 200 "id" "ap_1") in
  let out := call repr_stub net (CreatePassport "bot" "pubkey") (fresh (with_token "t")) in
  (v ← out.1; py_getitem v "id") = Return (VStr "ap_1")
  ∧ (req_headers <$> sent out.2) !! 0%nat ≫= (.!! "Authorization") = Some "Bearer t".
Proof. split; reflexivity. Qed.

Example test_get_public_passport_no_auth :
  let net := mock "GET" (BASE +:+ "/passports/ap_1/public") (json_field 200 "name" "bot") in
  let out := call repr_stub net (GetPublicPassport "ap_1") (fresh no_token) in
  (v ← out.1; py_getitem v "name") = Return (VStr "bot")
  ∧ (req_headers <$> sent out.2) !! 0%nat ≫= (.!! "Authorization") = None.
Proof. split; reflexivity. Qed.

Example test_get_messages :
  (call repr_stub inbox_net (GetMessages "ap_a") (fresh (with_token "t"))).1
  = Return (VList [dict [("id", VStr "m1")]]).
Proof. reflexivity. Qed.

Example test_error_handling :
  (call repr_stub login_rejected_net (Login "bad@x.com" "wrong") (fresh no_token)).1
  = Raise (AgentPassError "Invalid credentials" (Some 401)).
Proof. reflexivity. Qed.

(** ** Where the wording of the specification and the code part *)


(** C3, as worded: a client built with the empty string as its token has a
    token, yet [create_passport] sends no [Authorization] header. *)
Lemma bearer_when_token_present_fails : ¬ bearer_when_token_present.
Proof.
  intros H.
  destruct (H repr_stub login_accepted_net (CreatePassport "bot" "pubkey")
              (fresh (with_token ""))) as (req & Hsent & Hauth).
  - reflexivity.
  - discriminate.
  - rewrite call_sent in Hsent. apply app_inj_tail in Hsent as [_ <-].
    discriminate Hauth.
Qed.


(** ** The theorems at the scenarios *)




Lemma public_request_ignores_token_witness :
  ∃ req,
    sent (call repr_stub inbox_net (Verify "ap_1" "ch" "sig")
            (mkState (mkClient BASE (VStr "t")) [])).2 = [] ++ [req]
    ∧ sent (call repr_stub inbox_net (Verify "ap_1" "ch" "sig")
              (mkState (mkClient BASE VNone) [])).2 = [] ++ [req]
    ∧ req_headers req !! "Authorization" = None.
Proof.
  apply (public_request_ignores_token repr_stub inbox_net
           (Verify "ap_1" "ch" "sig") BASE (VStr "t") VNone []).
  reflexivity.
Defined.

Lemma other_calls_keep_client_witness :
  client (call repr_stub login_rejected_net (GetTrust "ap_1")
            (fresh (with_token "t"))).2
  = with_token "t".
Proof.
  apply (other_calls_keep_client repr_stub login_rejected_net
           (GetTrust "ap_1") (fresh (with_token "t"))).
  reflexivity.
Defined.


Lemma failed_auth_call_keeps_token_witness :
  token (client (call repr_stub login_rejected_net (Login "bad@x.com" "wrong")
                   (fresh (with_token "old"))).2)
  = VStr "old".
Proof.
  apply (failed_auth_call_keeps_token repr_stub login_rejected_net
           (Login "bad@x.com" "wrong") (fresh (with_token "old"))
           "Invalid credentials" (Some 401)).
  - reflexivity.
  - reflexivity.
Defined.


(** [rstrip] takes every trailing slash and leaves the inner ones. *)
Example init_strips_all_trailing_slashes :
  base_url (__init__ "http://localhost:3000/api//" VNone) = "http://localhost:3000/api"
  ∧ base_url (__init__ "///" VNone) = ""
  ∧ base_url no_token = BASE.
Proof. repeat split; reflexivity. Qed.

(** A token that is set but empty counts as no token for [_headers]. *)
Example empty_token_sends_no_authorization :
  _headers repr_stub (with_token "") true !! "Authorization" = None
  ∧ _headers repr_stub (with_token "t") true !! "Authorization" = Some "Bearer t"
  ∧ _headers repr_stub (with_token "t") false !! "Authorization" = None.
Proof. repeat split; reflexivity. Qed.

(** ** Further properties of the client *)

Section Further.

Variable repr : value → string.
Variable transport : Request → result Response.

#[local] Abbreviation call := (call repr transport).
#[local] Abbreviation request_for := (request_for repr).
#[local] Abbreviation after_send := (after_send repr).
#[local] Abbreviation interpret := (interpret repr).
#[local] Abbreviation answered := (answered repr transport).
#[local] Abbreviation refused := (refused repr transport).

Lemma refused_iff op st e :
  refused op st e ↔ transport (request_for (client st) op) = Raise e.
Proof.
  unfold refused. rewrite call_sent. split.
  - intros (req & Heq & Hraise). apply app_inj_tail in Heq as [_ <-]. exact Hraise.
  - intros Hraise. eexists. split; [reflexivity|exact Hraise].
Qed.

(** When the transport raises, the method raises the same exception. *)
Lemma call_transport_raises op st e :
  transport (request_for (client st) op) = Raise e →
  call op st = (Raise e, after_send op st).
Proof.
  intros Hraise. destruct (is_auth_operation op) eqn:Hop.
  - rewrite call_auth by assumption. rewrite Hraise. reflexivity.
  - rewrite call_plain by assumption. rewrite Hraise. reflexivity.
Qed.

(** On an [ok] response [_request] can only fail to decode the body. *)
Lemma interpret_ok_raise resp e :
  ok resp = true → interpret resp = Raise e → e = JSONDecodeError.
Proof.
  intros Hok. unfold interpret, resp_json. rewrite Hok. simpl.
  destruct (status_code resp =? 204); [discriminate|].
  destruct (json_decoded resp); [discriminate|]. congruence.
Qed.

Lemma interpret_ok_return resp v :
  ok resp = true → status_code resp ≠ 204 → interpret resp = Return v →
  json_decoded resp = Some v.
Proof.
  intros Hok Hne. unfold interpret, resp_json. rewrite Hok. simpl.
  destruct (Z.eqb_spec (status_code resp) 204); [contradiction|].
  destruct (json_decoded resp); congruence.
Qed.

Lemma py_getitem_raise v key e :
  py_getitem v key = Raise e → is_agentpass_error e = false.
Proof.
  unfold py_getitem. destruct v; try (intros [= <-]; reflexivity).
  destruct (d !! key); [discriminate|]. intros [= <-]. reflexivity.
Qed.

Lemma py_getitem_return v key x :
  py_getitem v key = Return x → ∃ d, v = VDict d ∧ d !! key = Some x.
Proof.
  unfold py_getitem. destruct v; try discriminate.
  destruct (d !! key) eqn:Hk; [|discriminate].
  intros [= <-]. exists d. split; [reflexivity|exact Hk].
Qed.

(** X1: every call of a public method calls [requests.request] exactly
    once, whatever the outcome (the client itself never retries); the call
    has the method and the [json=] body of the operation and [timeout=30].
    What the library then does with it (following a redirect, refusing a
    URL) is outside the client. *)
Theorem one_request_per_call op st :
  ∃ req,
    sent (call op st).2 = sent st ++ [req]
    ∧ req_method req = op_method op
    ∧ req_json req = op_json op
    ∧ req_timeout req = 30
    ∧ List.length (sent (call op st).2) = S (List.length (sent st)).
Proof.
  exists (request_for (client st) op). rewrite call_sent.
  repeat split. rewrite length_app. simpl. lia.
Qed.

(** X2: the [headers=] argument of the call of [requests.request] has no
    entry besides [Content-Type], and [Authorization] with the bearer token
    when the method authenticates and the stored token is truthy.  (The
    library adds its own default headers to these.) *)
Theorem no_other_headers op st :
  ∃ req,
    sent (call op st).2 = sent st ++ [req]
    ∧ ∀ k v, req_headers req !! k = Some v →
        (k = "Content-Type" ∧ v = "application/json")
        ∨ (k = "Authorization"
           ∧ op_auth op = true
           ∧ truthy (token (client st)) = true
           ∧ v = "Bearer " +:+ py_str repr (token (client st))).
Proof.
  exists (request_for (client st) op). split; [apply call_sent|].
  intros k v. unfold request_for. cbn [req_headers]. unfold _headers.
  destruct (op_auth op), (truthy (token (client st))); simpl;
    rewrite ?lookup_insert_Some, lookup_singleton_Some;
    intuition (subst; auto).
Qed.



(** X5: [AgentPassError] comes from a failure response only.  When a call
    raises it, the network answered with a status in 400..599, the error
    carries that status code (never [None]) and the message built from that
    response. *)
Theorem agentpass_error_only_on_failure op st msg code :
  library_transport transport →
  (call op st).1 = Raise (AgentPassError msg code) →
  ∃ resp,
    answered op st resp
    ∧ 400 ≤ status_code resp < 600
    ∧ code = Some (status_code resp)
    ∧ msg = py_str repr (error_body resp).
Proof.
  intros Hlib Hraise.
  destruct (transport (request_for (client st) op)) as [resp|e] eqn:Hnet.
  - exists resp. split; [apply answered_iff; exact Hnet|].
    destruct (ok resp) eqn:Hok.
    + exfalso. destruct (is_auth_operation op) eqn:Hop.
      * rewrite call_auth in Hraise by assumption. rewrite Hnet in Hraise.
        simpl in Hraise. destruct (interpret resp) as [data|e] eqn:Hint; simpl in Hraise.
        -- destruct (py_getitem data "token") as [tok|e] eqn:Hget; simpl in Hraise;
             [discriminate|].
           injection Hraise as ->. apply py_getitem_raise in Hget. discriminate.
        -- injection Hraise as ->.
           apply (interpret_ok_raise _ _ Hok) in Hint. discriminate.
      * rewrite call_plain in Hraise by assumption. rewrite Hnet in Hraise.
        simpl in Hraise. apply (interpret_ok_raise _ _ Hok) in Hraise.
        discriminate.
    + rewrite (call_raises _ _ _ _ _ _ Hnet (interpret_failure _ _ Hok)) in Hraise.
      injection Hraise as <- <-. split; [apply ok_false_iff; exact Hok|].
      split; reflexivity.
  - rewrite (call_transport_raises _ _ _ Hnet) in Hraise.
    injection Hraise as ->. apply Hlib in Hnet. discriminate.
Qed.

(** X6: [register] and [login] return only what they stored.  When one of
    them returns [v], the stored token is [v], the base URL is the one from
    before, and the network answered with an [ok] status other than 204 and
    a JSON object whose [token] field is [v]. *)
Theorem auth_call_return_is_stored_token op st v :
  is_auth_operation op = true →
  (call op st).1 = Return v →
  token (client (call op st).2) = v
  ∧ base_url (client (call op st).2) = base_url (client st)
  ∧ ∃ resp d,
      answered op st resp
      ∧ ok resp = true
      ∧ status_code resp ≠ 204
      ∧ json_decoded resp = Some (VDict d)
      ∧ d !! "token" = Some v.
Proof.
  intros Hop Hret. rewrite call_auth in Hret |- * by assumption.
  destruct (transport (request_for (client st) op)) as [resp|e] eqn:Hnet;
    [|discriminate]. simpl in Hret |- *.
  destruct (interpret resp) as [data|e] eqn:Hint; [|discriminate].
  simpl in Hret |- *.
  destruct (py_getitem data "token") as [tok|e] eqn:Hget; [|discriminate].
  simpl in Hret |- *. injection Hret as ->.
  split; [reflexivity|]. split; [reflexivity|].
  apply py_getitem_return in Hget as (d & -> & Htok).
  assert (ok resp = true) as Hok.
  { destruct (ok resp) eqn:Hok; [reflexivity|].
    rewrite (interpret_failure _ _ Hok) in Hint. discriminate. }
  assert (status_code resp ≠ 204) as Hne.
  { intros H204. rewrite (interpret_no_content _ _ H204) in Hint. discriminate. }
  exists resp, d. split; [apply answered_iff; exact Hnet|].
  split; [exact Hok|]. split; [exact Hne|].
  split; [apply (interpret_ok_return _ _ Hok Hne Hint)|exact Htok].
Qed.

(** X7: the token that a successful [register] or [login] stored is the one
    the next authenticated call sends: its request goes out second, to the
    same base URL, with [Authorization: Bearer <token>] when the token is
    truthy and without the header when it is not (a JSON null, an empty
    string). *)
Theorem token_used_by_next_call op1 op2 st resp d tok :
  is_auth_operation op1 = true →
  answered op1 st resp →
  well_formed resp →
  ok resp = true →
  json_decoded resp = Some (VDict d) →
  d !! "token" = Some tok →
  op_auth op2 = true →
  ∃ req1 req2,
    sent (call op2 (call op1 st).2).2 = sent st ++ [req1; req2]
    ∧ req_url req2 = base_url (client st) +:+ op_path op2
    ∧ req_headers req2 !! "Authorization"
      = if truthy tok then Some ("Bearer " +:+ py_str repr tok) else None.
Proof.
  intros Hop1 Hans Hwf Hok Hj Htok Hop2. apply answered_iff in Hans.
  assert (call op1 st
          = (Return tok,
             mkState (mkClient (base_url (client st)) tok)
               (sent st ++ [request_for (client st) op1]))) as Hrun.
  { rewrite call_auth by assumption. rewrite Hans. simpl.
    rewrite (interpret_json _ _ _ Hwf Hok Hj). simpl. rewrite Htok. reflexivity. }
  rewrite Hrun. cbn [snd]. rewrite call_sent. cbn [client sent base_url].
  eexists _, _. split; [rewrite <- app_assoc; reflexivity|].
  split; [reflexivity|].
  unfold request_for. cbn [req_headers].
  rewrite headers_authorization, Hop2. reflexivity.
Qed.

Lemma rstrip_clean s : ends_with "/" s = false → rstrip "/" s = s.
Proof.
  induction s as [|a s IH]; [reflexivity|]. simpl. destruct s as [|b s].
  - simpl. intros ->. reflexivity.
  - intros Hend. rewrite (IH Hend). reflexivity.
Qed.

(** X8: a base URL that does not end in [/] is stored as given, with the
    token as given. *)
Theorem init_keeps_clean_base_url b t :
  ends_with "/" b = false →
  __init__ b t = mkClient b t.
Proof. intros Hend. unfold __init__. rewrite (rstrip_clean _ Hend). reflexivity. Qed.

(** X9: building a client from the base URL and token of a client gives the
    same client: the constructor has nothing left to strip. *)
Theorem init_idempotent b t :
  __init__ (base_url (__init__ b t)) (token (__init__ b t)) = __init__ b t.
Proof.
  unfold __init__. cbn [base_url token]. rewrite rstrip_clean; [reflexivity|].
  apply rstrip_not_ends_with. reflexivity.
Qed.

(** X10: a passport id goes into the path as it is, without escaping: an id
    that ends in [/trust] or [/messages] turns [get_passport] into
    [get_trust] or [get_messages] of the shorter id, and on a client without
    a usable token an id that ends in [/public] turns it into
    [get_public_passport]. *)
Theorem passport_id_goes_into_path_verbatim i st :
  call (GetPassport (i +:+ "/trust")) st = call (GetTrust i) st
  ∧ call (GetPassport (i +:+ "/messages")) st = call (GetMessages i) st
  ∧ (truthy (token (client st)) = false →
     call (GetPassport (i +:+ "/public")) st = call (GetPublicPassport i) st).
Proof.
  split; [reflexivity|]. split; [reflexivity|].
  intros Hfalsy. rewrite !call_plain by reflexivity.
  unfold after_send, request_for, _headers. cbn [op_auth].
  rewrite Hfalsy. reflexivity.
Qed.

(** X11: [register] and [login] authenticate like the other methods ([auth]
    is left at its default): on a client that holds a truthy token their
    request carries [Authorization: Bearer <token>] with the token from
    before the call. *)
Theorem auth_calls_send_stored_token op st :
  is_auth_operation op = true →
  truthy (token (client st)) = true →
  ∃ req,
    sent (call op st).2 = sent st ++ [req]
    ∧ req_headers req !! "Authorization"
      = Some ("Bearer " +:+ py_str repr (token (client st))).
Proof.
  intros Hop Htok. exists (request_for (client st) op).
  split; [apply call_sent|]. unfold request_for. cbn [req_headers].
  rewrite headers_authorization, Htok.
  destruct op; try discriminate Hop; reflexivity.
Qed.

End Further.

(** ** The further properties at the scenarios *)

Lemma mock_library_transport method url resp :
  library_transport (mock method url resp).
Proof.
  intros req e. unfold mock.
  destruct (_ && _); [discriminate|]. intros [= <-]. reflexivity.
Qed.



Lemma agentpass_error_only_on_failure_witness :
  ∃ resp,
    answered repr_stub login_rejected_net (Login "bad@x.com" "wrong")
      (fresh no_token) resp
    ∧ 400 ≤ status_code resp < 600
    ∧ Some 401 = Some (status_code resp)
    ∧ "Invalid credentials" = py_str repr_stub (error_body resp).
Proof.
  apply (agentpass_error_only_on_failure repr_stub login_rejected_net
           (Login "bad@x.com" "wrong") (fresh no_token)
           "Invalid credentials" (Some 401)).
  - apply mock_library_transport.
  - reflexivity.
Defined.

Lemma auth_call_return_is_stored_token_witness :
  let out := call repr_stub login_accepted_net (Login "a@b.com" "pw")
               (fresh (with_token "old")) in
  token (client out.2) = VStr "tok456"
  ∧ base_url (client out.2) = BASE
  ∧ ∃ resp d,
      answered repr_stub login_accepted_net (Login "a@b.com" "pw")
        (fresh (with_token "old")) resp
      ∧ ok resp = true
      ∧ status_code resp ≠ 204
      ∧ json_decoded resp = Some (VDict d)
      ∧ d !! "token" = Some (VStr "tok456").
Proof.
  apply (auth_call_return_is_stored_token repr_stub login_accepted_net
           (Login "a@b.com" "pw") (fresh (with_token "old")) (VStr "tok456")).
  - reflexivity.
  - reflexivity.
Defined.

Lemma token_used_by_next_call_witness :
  ∃ req1 req2,
    sent (call repr_stub session_net (CreatePassport "bot" "pubkey")
            (call repr_stub session_net (Login "a@b.com" "pw")
               (fresh no_token)).2).2
    = [] ++ [req1; req2]
    ∧ req_url req2 = BASE +:+ "/passports"
    ∧ req_headers req2 !! "Authorization" = Some "Bearer tok456".
Proof.
  apply (token_used_by_next_call repr_stub session_net
           (Login "a@b.com" "pw") (CreatePassport "bot" "pubkey")
           (fresh no_token) login_accepted
           (list_to_map [("token", VStr "tok456")]) (VStr "tok456")).
  - reflexivity.
  - eexists. split; reflexivity.
  - intros H204. discriminate H204.
  - reflexivity.
  - reflexivity.
  - reflexivity.
  - reflexivity.
Defined.

Lemma init_keeps_clean_base_url_witness :
  __init__ "http://localhost:3000/api" (VStr "t")
  = mkClient "http://localhost:3000/api" (VStr "t").
Proof.
  apply (init_keeps_clean_base_url "http://localhost:3000/api" (VStr "t")).
  reflexivity.
Defined.

Lemma auth_calls_send_stored_token_witness :
  ∃ req,
    sent (call repr_stub login_accepted_net (Login "a@b.com" "pw")
            (fresh (with_token "old"))).2 = [] ++ [req]
    ∧ req_headers req !! "Authorization" = Some "Bearer old".
Proof.
  apply (auth_calls_send_stored_token repr_stub login_accepted_net
           (Login "a@b.com" "pw") (fresh (with_token "old"))).
  - reflexivity.
  - reflexivity.
Defined.
